(** * swift/Runtime/Atomic.h: swift::atomic and its two implementations

    A shallow embedding of [swift::impl::atomic_impl] (the wrapper around
    [std::atomic]) and of its double-pointer-width specialization (built on
    the [_InterlockedCompareExchange128] family), followed by the
    properties of [load] and [compare_exchange_weak].

    [swift::atomic<T>] itself (lines 162-166) derives from
    [impl::atomic_impl<T>] and adds a constructor only, so its [load] and
    [compare_exchange_weak] are those of the cell it derives from.

    The embedding is sequential: one thread, one cell.  A memory order is
    carried through every call exactly as in the header, where it decides
    which assertion fires and which instruction is issued; it has no other
    effect on the values a single thread observes. *)

From Stdlib Require Import ZArith List Bool.
From stdpp Require Import base decidable tactics numbers.
Import ListNotations.

Local Open Scope Z_scope.

(** ** std::memory_order *)

Inductive memory_order : Type :=
  | memory_order_relaxed
  | memory_order_consume
  | memory_order_acquire
  | memory_order_release
  | memory_order_acq_rel
  | memory_order_seq_cst.

#[global] Instance memory_order_eq_dec : EqDecision memory_order.
Proof. solve_decision. Defined.

(** [a == b] and [a != b] on enumerators, as the header writes them. *)
Definition order_eq (a b : memory_order) : bool := bool_decide (a = b).
Definition order_ne (a b : memory_order) : bool := negb (order_eq a b).

Declare Scope cxx_scope.
Delimit Scope cxx_scope with cxx.
Infix "==" := order_eq (at level 70, no associativity) : cxx_scope.
Infix "!=" := order_ne (at level 70, no associativity) : cxx_scope.

(** ** Build configuration

    The preprocessor symbols the header tests.  [NDEBUG] removes every
    [assert]; the others describe the target. *)

Record target : Type := {
  NDEBUG : bool;
  _M_ARM : bool;
  __arm__ : bool;
  __arm64__ : bool;
  __aarch64__ : bool;
  _M_ARM64 : bool;
}.

(** Lines 29-33. *)
Definition SWIFT_MEMORY_ORDER_CONSUME (t : target) : memory_order :=
  if __arm__ t || _M_ARM t || __arm64__ t || __aarch64__ t || _M_ARM64 t
  then memory_order_relaxed
  else memory_order_consume.

(** Lines 35-39. *)
Definition SWIFT_HAS_MSVC_ARM_ATOMICS (t : target) : bool :=
  _M_ARM t || __arm__ t || __aarch64__ t.

(** ** Outcome of a call

    A call returns, or trips an [assert] of this header, or breaks a
    precondition of the platform's [std::atomic], after which the
    standard promises nothing. *)

Inductive outcome (A : Type) : Type :=
  | Returned (a : A)
  | AssertionFailed
  | Undefined.

Arguments Returned {A} a.
Arguments AssertionFailed {A}.
Arguments Undefined {A}.

Definition bind {A B : Type} (m : outcome A) (k : A -> outcome B) : outcome B :=
  match m with
  | Returned a => k a
  | AssertionFailed => AssertionFailed
  | Undefined => Undefined
  end.

Notation "m ;;; k" := (bind m (fun _ => k))
  (at level 100, k at level 200, right associativity).

(** [assert(e)] from <assert.h>: nothing at all under [NDEBUG]. *)
Definition assert (t : target) (e : bool) : outcome unit :=
  if NDEBUG t then Returned tt
  else if e then Returned tt else AssertionFailed.

(** ** std::atomic<Value>

    Platform primitive, outside this repository: its sequential behaviour
    as the C++ standard gives it ([atomics.types.operations]).  Equality of
    values stands for equality of their object representations. *)

Module std.

Record atomic (Value : Type) : Type := { stored : Value }.
Arguments stored {Value} _.

(** "Preconditions: order is neither release nor acq_rel." *)
Definition load_order_ok (order : memory_order) : bool :=
  (order != memory_order_release)%cxx && (order != memory_order_acq_rel)%cxx.

(** "Preconditions: failure is neither release nor acq_rel." *)
Definition failure_order_ok (failure : memory_order) : bool :=
  (failure != memory_order_release)%cxx
  && (failure != memory_order_acq_rel)%cxx.

Section Operations.
Context {Value : Type} `{EqDecision Value}.

Definition load (self : atomic Value) (order : memory_order)
  : outcome Value :=
  if load_order_ok order then Returned (stored self) else Undefined.

(** The weak form may fail although the comparison holds; [spurious]
    is that choice of the platform for this call.  The triple is the
    returned flag, [expected] after the call and the object after the
    call. *)
Definition compare_exchange_weak (spurious : bool)
    (self : atomic Value) (expected desired : Value)
    (success failure : memory_order)
  : outcome (bool * Value * atomic Value) :=
  if failure_order_ok failure then
    if bool_decide (stored self = expected) && negb spurious
    then Returned (true, expected, {| stored := desired |})
    else Returned (false, stored self, self)
  else Undefined.
End Operations.

End std.

(** ** The generic cell: atomic_impl<Value, Size> (lines 49-67) *)

Module atomic_impl.
Section Generic.
Context {Value : Type} `{EqDecision Value}.

Record t : Type := { value : std.atomic Value }.

(** Line 53. *)
Definition construct (v : Value) : t :=
  {| value := {| std.stored := v |} |}.

(** Lines 56-58. *)
Definition load (self : t) (order : memory_order) : outcome Value :=
  std.load (value self) order.

(** Lines 61-66.  [oldValue] is passed by reference: the second
    component of the result is its contents after the call. *)
Definition compare_exchange_weak (spurious : bool) (self : t)
    (oldValue newValue : Value)
    (successOrder failureOrder : memory_order)
  : outcome (bool * Value * t) :=
  bind (std.compare_exchange_weak spurious (value self) oldValue newValue
          successOrder failureOrder)
       (fun '(ok, oldValue', value') =>
          Returned (ok, oldValue', {| value := value' |})).
End Generic.
Arguments t : clear implicits.
End atomic_impl.

(** ** The 128-bit compare-exchange intrinsics

    Platform primitive, outside this repository: <intrin.h> as Microsoft
    documents it.  The destination is compared with [ComparandResult]; when
    they are equal the destination receives [ExchangeHigh:ExchangeLow];
    in both cases [ComparandResult] receives the original destination, and
    the returned byte is 1 exactly when the exchange took place.  The four
    functions differ in the barrier they imply and in nothing else. *)

(** A 16-byte object seen as [__int64[2]]: what
    [reinterpret_cast<__int64*>] of its address exposes.  No arithmetic is
    ever done on the two words. *)
Record int64x2 : Type := { word0 : Z; word1 : Z }.

#[global] Instance int64x2_eq_dec : EqDecision int64x2.
Proof. solve_decision. Defined.

Module intrin.

Inductive barrier : Type := no_fence | acquire_fence | release_fence | full_fence.

#[global] Instance barrier_eq_dec : EqDecision barrier.
Proof. solve_decision. Defined.

(** The arguments of one call. *)
Record operands128 : Type := {
  Destination : int64x2;
  ExchangeHigh : Z;
  ExchangeLow : Z;
  ComparandResult : int64x2;
}.

(** One execution of the instruction: what it was called with, the byte
    it returned, the two memory operands afterwards, and its barrier. *)
Record cmpxchg128 : Type := {
  called_with : operands128;
  exchanged : bool;
  Destination' : int64x2;
  ComparandResult' : int64x2;
  implied : barrier;
}.

Definition cmpxchg16b (b : barrier) (Destination : int64x2)
    (ExchangeHigh ExchangeLow : Z) (ComparandResult : int64x2)
  : cmpxchg128 :=
  if bool_decide (Destination = ComparandResult)
  then {| called_with := {| Destination := Destination;
                            ExchangeHigh := ExchangeHigh;
                            ExchangeLow := ExchangeLow;
                            ComparandResult := ComparandResult |};
          exchanged := true;
          Destination' := {| word0 := ExchangeLow; word1 := ExchangeHigh |};
          ComparandResult' := Destination;
          implied := b |}
  else {| called_with := {| Destination := Destination;
                            ExchangeHigh := ExchangeHigh;
                            ExchangeLow := ExchangeLow;
                            ComparandResult := ComparandResult |};
          exchanged := false;
          Destination' := Destination;
          ComparandResult' := Destination;
          implied := b |}.

Definition _InterlockedCompareExchange128 := cmpxchg16b full_fence.
Definition _InterlockedCompareExchange128_nf := cmpxchg16b no_fence.
Definition _InterlockedCompareExchange128_acq := cmpxchg16b acquire_fence.
Definition _InterlockedCompareExchange128_rel := cmpxchg16b release_fence.

End intrin.

(** ** The wide cell: atomic_impl<Value, 16>, the specialization at twice
    the size of a pointer (lines 76-149), compiled where [_WIN64] is
    defined *)

Module atomic_impl_wide.
Import intrin.

Abbreviation Value := int64x2.

Record t : Type := { atomicValue : Value }.

(** What a member function leaves behind: its return value, the object,
    the barrier of the one instruction it executed, and that execution
    itself. *)
Record completed (A : Type) : Type := {
  result : A;
  this : t;
  issued : barrier;
  executed : cmpxchg128;
}.
Arguments result {A} _.
Arguments this {A} _.
Arguments issued {A} _.
Arguments executed {A} _.

(** Line 80. *)
Definition construct (initialValue : Value) : t :=
  {| atomicValue := initialValue |}.

(** Lines 85-108.  The value of the intrinsic is discarded; the
    function returns [resultArray] reinterpreted as a [Value]. *)
Definition load (tg : target) (self : t) (order : memory_order)
  : outcome (completed Value) :=
  assert tg ((order == memory_order_relaxed)%cxx
             || (order == memory_order_acquire)%cxx
             || (order == memory_order_consume)%cxx) ;;;
  let resultArray := {| word0 := 0; word1 := 0 |} in
  let finish (r : cmpxchg128) : outcome (completed Value) :=
    Returned {| result := ComparandResult' r;
                this := {| atomicValue := Destination' r |};
                issued := implied r;
                executed := r |} in
  if SWIFT_HAS_MSVC_ARM_ATOMICS tg then
    if (order != memory_order_acquire)%cxx then
      finish (_InterlockedCompareExchange128_nf
                (atomicValue self) 0 0 resultArray)
    else
      finish (_InterlockedCompareExchange128
                (atomicValue self) 0 0 resultArray)
  else
    finish (_InterlockedCompareExchange128
              (atomicValue self) 0 0 resultArray).

(** Lines 110-148.  [oldValue] is passed by reference and is the
    intrinsic's [ComparandResult]: the result pairs the returned flag
    with its contents after the call. *)
Definition compare_exchange_weak (tg : target) (self : t)
    (oldValue newValue : Value)
    (successOrder failureOrder : memory_order)
  : outcome (completed (bool * Value)) :=
  assert tg ((failureOrder == memory_order_relaxed)%cxx
             || (failureOrder == memory_order_acquire)%cxx
             || (failureOrder == memory_order_consume)%cxx) ;;;
  assert tg ((successOrder == memory_order_relaxed)%cxx
             || (successOrder == memory_order_release)%cxx) ;;;
  let finish (r : cmpxchg128) : outcome (completed (bool * Value)) :=
    Returned {| result := (exchanged r, ComparandResult' r);
                this := {| atomicValue := Destination' r |};
                issued := implied r;
                executed := r |} in
  if SWIFT_HAS_MSVC_ARM_ATOMICS tg then
    if (successOrder == memory_order_relaxed)%cxx
       && (failureOrder != memory_order_acquire)%cxx then
      finish (_InterlockedCompareExchange128_nf
                (atomicValue self) (word1 newValue) (word0 newValue)
                oldValue)
    else if (successOrder == memory_order_relaxed)%cxx then
      finish (_InterlockedCompareExchange128_acq
                (atomicValue self) (word1 newValue) (word0 newValue)
                oldValue)
    else if (failureOrder != memory_order_acquire)%cxx then
      finish (_InterlockedCompareExchange128_rel
                (atomicValue self) (word1 newValue) (word0 newValue)
                oldValue)
    else
      finish (_InterlockedCompareExchange128
                (atomicValue self) (word1 newValue) (word0 newValue)
                oldValue)
  else
    finish (_InterlockedCompareExchange128
              (atomicValue self) (word1 newValue) (word0 newValue)
              oldValue).

End atomic_impl_wide.

(** ** Which orderings a call may name *)

Module ordering.
Import intrin.

(** The first assertion of the wide [load]. *)
Definition wide_load_accepts (order : memory_order) : bool :=
  (order == memory_order_relaxed)%cxx
  || (order == memory_order_acquire)%cxx
  || (order == memory_order_consume)%cxx.

(** The two assertions of the wide [compare_exchange_weak]. *)
Definition wide_cew_accepts (successOrder failureOrder : memory_order)
  : bool :=
  ((failureOrder == memory_order_relaxed)%cxx
   || (failureOrder == memory_order_acquire)%cxx
   || (failureOrder == memory_order_consume)%cxx)
  && ((successOrder == memory_order_relaxed)%cxx
      || (successOrder == memory_order_release)%cxx).

(** What a pair of orderings asks of the instruction, and what each
    variant gives. *)
Definition needs_acquire (successOrder failureOrder : memory_order)
  : bool := (failureOrder == memory_order_acquire)%cxx.

Definition needs_release (successOrder failureOrder : memory_order)
  : bool := (successOrder == memory_order_release)%cxx.

Definition gives_acquire (b : barrier) : bool :=
  match b with acquire_fence | full_fence => true | _ => false end.

Definition gives_release (b : barrier) : bool :=
  match b with release_fence | full_fence => true | _ => false end.

Definition satisfies (b : barrier) (successOrder failureOrder : memory_order)
  : bool :=
  implb (needs_acquire successOrder failureOrder) (gives_acquire b)
  && implb (needs_release successOrder failureOrder) (gives_release b).

(** [weaker b1 b2]: every guarantee of [b1] is one of [b2]. *)
Definition weaker (b1 b2 : barrier) : bool :=
  implb (gives_acquire b1) (gives_acquire b2)
  && implb (gives_release b1) (gives_release b2).

(** The selection as the specification words it: no-fence when the
    success side is relaxed and the failure side does not need acquire,
    acquire-fenced when the success side is relaxed and the failure side
    is acquire, release-fenced when the success side is release and the
    failure side does not need acquire, fully-fenced otherwise. *)
Definition specified_variant (successOrder failureOrder : memory_order)
  : barrier :=
  match bool_decide (successOrder = memory_order_relaxed),
        bool_decide (successOrder = memory_order_release),
        bool_decide (failureOrder = memory_order_acquire) with
  | true, _, false => no_fence
  | true, _, true => acquire_fence
  | false, true, false => release_fence
  | _, _, _ => full_fence
  end.

(** The instruction the wide [load] executes, read off its branches
    (lines 94-106). *)
Definition load_barrier (tg : target) (order : memory_order) : barrier :=
  if SWIFT_HAS_MSVC_ARM_ATOMICS tg then
    if (order != memory_order_acquire)%cxx then no_fence else full_fence
  else full_fence.

(** The instruction the wide [compare_exchange_weak] executes, read off
    its branches (lines 118-147). *)
Definition cew_barrier (tg : target)
    (successOrder failureOrder : memory_order) : barrier :=
  if SWIFT_HAS_MSVC_ARM_ATOMICS tg then
    if (successOrder == memory_order_relaxed)%cxx
       && (failureOrder != memory_order_acquire)%cxx then no_fence
    else if (successOrder == memory_order_relaxed)%cxx then acquire_fence
    else if (failureOrder != memory_order_acquire)%cxx then release_fence
    else full_fence
  else full_fence.

End ordering.

(** ** Single-threaded clients

    A test drives one cell of a 16-byte [Value] through a list of calls
    and writes down what each call hands back. *)

Module client.

Inductive call : Type :=
  | Load (order : memory_order)
  | CompareExchangeWeak (expected desired : int64x2)
      (successOrder failureOrder : memory_order).

Inductive observation : Type :=
  | Loaded (v : int64x2)
  | Exchanged (ok : bool) (expected' : int64x2).

Definition generic_step (spurious : bool) (c : call)
    (self : atomic_impl.t int64x2)
  : outcome (observation * atomic_impl.t int64x2) :=
  match c with
  | Load order =>
      bind (atomic_impl.load self order)
           (fun v => Returned (Loaded v, self))
  | CompareExchangeWeak expected desired successOrder failureOrder =>
      bind (atomic_impl.compare_exchange_weak spurious self expected desired
              successOrder failureOrder)
           (fun '(ok, expected', self') =>
              Returned (Exchanged ok expected', self'))
  end.

Definition wide_step (tg : target) (c : call) (self : atomic_impl_wide.t)
  : outcome (observation * atomic_impl_wide.t) :=
  match c with
  | Load order =>
      bind (atomic_impl_wide.load tg self order)
           (fun r => Returned (Loaded (atomic_impl_wide.result r),
                               atomic_impl_wide.this r))
  | CompareExchangeWeak expected desired successOrder failureOrder =>
      bind (atomic_impl_wide.compare_exchange_weak tg self expected desired
              successOrder failureOrder)
           (fun r => Returned (Exchanged (fst (atomic_impl_wide.result r))
                                         (snd (atomic_impl_wide.result r)),
                               atomic_impl_wide.this r))
  end.

(** Calls are numbered from [i]; a call that does not return ends the
    run. *)
Fixpoint run {Cell : Type}
    (step : nat -> call -> Cell -> outcome (observation * Cell))
    (i : nat) (calls : list call) (self : Cell)
  : outcome (list observation * Cell) :=
  match calls with
  | [] => Returned ([], self)
  | c :: rest =>
      bind (step i c self) (fun '(o, self') =>
      bind (run step (S i) rest self') (fun '(os, final) =>
      Returned (o :: os, final)))
  end.

(** [spurious i] tells whether the platform lets the [i]-th call fail
    spuriously. *)
Definition run_generic (spurious : nat -> bool) :=
  run (fun i => generic_step (spurious i)) 0%nat.

Definition run_wide (tg : target) :=
  run (fun _ => wide_step tg) 0%nat.

(** Orderings both cells take: the preconditions of [std::atomic] and
    the assertions of the wide cell. *)
Definition legal_for_both (c : call) : bool :=
  match c with
  | Load order =>
      std.load_order_ok order && ordering.wide_load_accepts order
  | CompareExchangeWeak _ _ successOrder failureOrder =>
      std.failure_order_ok failureOrder
      && ordering.wide_cew_accepts successOrder failureOrder
  end.

End client.

(** ** Concrete values and targets used in the examples *)

Definition i128 (n : Z) : int64x2 := {| word0 := n; word1 := 0 |}.

Definition x64_debug : target :=
  {| NDEBUG := false; _M_ARM := false; __arm__ := false; __arm64__ := false;
     __aarch64__ := false; _M_ARM64 := false |}.

Definition arm64_debug : target :=
  {| NDEBUG := false; _M_ARM := false; __arm__ := false; __arm64__ := false;
     __aarch64__ := true; _M_ARM64 := false |}.

Definition arm64_release : target :=
  {| NDEBUG := true; _M_ARM := false; __arm__ := false; __arm64__ := false;
     __aarch64__ := true; _M_ARM64 := false |}.

(** * Properties *)

Import intrin ordering.

Ltac unfold_orders :=
  unfold wide_load_accepts, wide_cew_accepts, std.load_order_ok,
    std.failure_order_ok, order_ne, order_eq in *.

(** The instruction on its own: the destination changes only when the
    comparison holds, and the comparand always receives the old
    destination. *)
Lemma cmpxchg16b_equal b d hi lo :
  cmpxchg16b b d hi lo d
  = {| called_with := {| Destination := d; ExchangeHigh := hi;
                         ExchangeLow := lo; ComparandResult := d |};
       exchanged := true;
       Destination' := {| word0 := lo; word1 := hi |};
       ComparandResult' := d;
       implied := b |}.
Proof. unfold cmpxchg16b. rewrite bool_decide_eq_true_2; done. Qed.

Lemma cmpxchg16b_differ b d hi lo c :
  d <> c ->
  cmpxchg16b b d hi lo c
  = {| called_with := {| Destination := d; ExchangeHigh := hi;
                         ExchangeLow := lo; ComparandResult := c |};
       exchanged := false;
       Destination' := d;
       ComparandResult' := d;
       implied := b |}.
Proof. intros Hne. unfold cmpxchg16b. rewrite bool_decide_eq_false_2; done. Qed.

Lemma cmpxchg16b_reports_old b d hi lo c :
  ComparandResult' (cmpxchg16b b d hi lo c) = d.
Proof. unfold cmpxchg16b. case_bool_decide; done. Qed.

Lemma cmpxchg16b_implied b d hi lo c :
  implied (cmpxchg16b b d hi lo c) = b.
Proof. unfold cmpxchg16b. case_bool_decide; done. Qed.

(** Storing zero over zero: the sentinel exchange never changes the
    destination. *)
Lemma cmpxchg16b_sentinel b d :
  Destination' (cmpxchg16b b d 0 0 {| word0 := 0; word1 := 0 |}) = d.
Proof. unfold cmpxchg16b. case_bool_decide; simpl; congruence. Qed.

Lemma cmpxchg16b_exchanged b d hi lo c :
  exchanged (cmpxchg16b b d hi lo c) = bool_decide (d = c).
Proof. unfold cmpxchg16b. case_bool_decide; done. Qed.

Lemma wide_load_unfold tg self order :
  atomic_impl_wide.load tg self order
  = (assert tg (wide_load_accepts order) ;;;
     let r := cmpxchg16b (load_barrier tg order)
                (atomic_impl_wide.atomicValue self) 0 0
                {| word0 := 0; word1 := 0 |} in
     Returned {| atomic_impl_wide.result := ComparandResult' r;
                 atomic_impl_wide.this :=
                   {| atomic_impl_wide.atomicValue := Destination' r |};
                 atomic_impl_wide.issued := implied r;
                 atomic_impl_wide.executed := r |}).
Proof.
  unfold atomic_impl_wide.load, load_barrier, wide_load_accepts,
    _InterlockedCompareExchange128, _InterlockedCompareExchange128_nf.
  destruct (assert _ _); simpl; try done.
  destruct (SWIFT_HAS_MSVC_ARM_ATOMICS tg); try done.
  destruct (order != memory_order_acquire)%cxx; done.
Qed.

Lemma wide_load_accepts_iff order :
  wide_load_accepts order = true
  <-> order = memory_order_relaxed \/ order = memory_order_acquire
      \/ order = memory_order_consume.
Proof. destruct order; unfold_orders; simpl; intuition congruence. Qed.

Lemma wide_cew_accepts_iff successOrder failureOrder :
  wide_cew_accepts successOrder failureOrder = true
  <-> (failureOrder = memory_order_relaxed
       \/ failureOrder = memory_order_acquire
       \/ failureOrder = memory_order_consume)
      /\ (successOrder = memory_order_relaxed
          \/ successOrder = memory_order_release).
Proof.
  destruct successOrder, failureOrder; unfold_orders; simpl;
    intuition congruence.
Qed.

(** Both assertions of the wide [compare_exchange_weak] as one test, and
    its four calls as one. *)
Lemma wide_cew_unfold tg self oldValue newValue successOrder failureOrder :
  atomic_impl_wide.compare_exchange_weak tg self oldValue newValue
    successOrder failureOrder
  = (assert tg (wide_cew_accepts successOrder failureOrder) ;;;
     let r := cmpxchg16b (cew_barrier tg successOrder failureOrder)
                (atomic_impl_wide.atomicValue self)
                (word1 newValue) (word0 newValue) oldValue in
     Returned {| atomic_impl_wide.result := (exchanged r, ComparandResult' r);
                 atomic_impl_wide.this :=
                   {| atomic_impl_wide.atomicValue := Destination' r |};
                 atomic_impl_wide.issued := implied r;
                 atomic_impl_wide.executed := r |}).
Proof.
  unfold atomic_impl_wide.compare_exchange_weak, cew_barrier,
    wide_cew_accepts, assert, bind,
    _InterlockedCompareExchange128, _InterlockedCompareExchange128_nf,
    _InterlockedCompareExchange128_acq, _InterlockedCompareExchange128_rel.
  destruct (NDEBUG tg), (SWIFT_HAS_MSVC_ARM_ATOMICS tg),
    successOrder, failureOrder; reflexivity.
Qed.

Lemma assert_accepts tg e :
  NDEBUG tg || e = true -> assert tg e = Returned tt.
Proof. unfold assert. destruct (NDEBUG tg), e; simpl; done. Qed.

Lemma assert_rejects tg e :
  NDEBUG tg = false -> e = false -> assert tg e = AssertionFailed.
Proof. unfold assert. intros -> ->. done. Qed.

(** The order the header's own consume macro stands for passes the
    assertions of the wide cell on every target. *)
Lemma consume_macro_accepted tg :
  wide_load_accepts (SWIFT_MEMORY_ORDER_CONSUME tg) = true
  /\ wide_cew_accepts memory_order_release (SWIFT_MEMORY_ORDER_CONSUME tg)
     = true.
Proof.
  unfold SWIFT_MEMORY_ORDER_CONSUME.
  destruct (_ || _); split; reflexivity.
Qed.

(** With [NDEBUG] nothing is checked: the call goes on to the instruction
    its branches pick for the pair, whatever the pair is. *)
Example release_build_checks_nothing :
  atomic_impl_wide.compare_exchange_weak arm64_release
    (atomic_impl_wide.construct (i128 7)) (i128 3) (i128 9)
    memory_order_seq_cst memory_order_seq_cst
  = Returned {| atomic_impl_wide.result := (false, i128 7);
                atomic_impl_wide.this := atomic_impl_wide.construct (i128 7);
                atomic_impl_wide.issued := release_fence;
                atomic_impl_wide.executed
                  := _InterlockedCompareExchange128_rel
                       (i128 7) 0 9 (i128 3) |}.
Proof. reflexivity. Qed.

(** C3: in a build with assertions, the wide cell's compare_exchange_weak
    trips an assertion unless failure_order is relaxed, acquire or consume
    and success_order is relaxed or release; in particular it trips one
    when success_order is acquire. *)
Theorem wide_cew_asserts_orderings
    tg self oldValue newValue successOrder failureOrder :
  NDEBUG tg = false ->
  (atomic_impl_wide.compare_exchange_weak tg self oldValue newValue
     successOrder failureOrder = AssertionFailed
   <-> ~ ((failureOrder = memory_order_relaxed
           \/ failureOrder = memory_order_acquire
           \/ failureOrder = memory_order_consume)
          /\ (successOrder = memory_order_relaxed
              \/ successOrder = memory_order_release)))
  /\ (successOrder = memory_order_acquire ->
      atomic_impl_wide.compare_exchange_weak tg self oldValue newValue
        successOrder failureOrder = AssertionFailed).
Proof.
  intros Hdebug.
  rewrite wide_cew_unfold, <- wide_cew_accepts_iff.
  destruct (wide_cew_accepts successOrder failureOrder) eqn:Hacc.
  - rewrite assert_accepts by (rewrite Hdebug; done). simpl. split.
    + split; [discriminate | intros Hno; destruct Hno; reflexivity].
    + intros ->. apply wide_cew_accepts_iff in Hacc.
      destruct Hacc as [_ [Hso | Hso]]; discriminate Hso.
  - rewrite assert_rejects by done. simpl. split; [|done].
    split; [intros _; discriminate | done].
Qed.

Lemma wide_cew_asserts_orderings_witness :
  atomic_impl_wide.compare_exchange_weak x64_debug
    (atomic_impl_wide.construct (i128 0)) (i128 0) (i128 42)
    memory_order_acquire memory_order_relaxed = AssertionFailed.
Proof.
  apply (wide_cew_asserts_orderings x64_debug
           (atomic_impl_wide.construct (i128 0)) (i128 0) (i128 42)
           memory_order_acquire memory_order_relaxed);
    reflexivity.
Defined.

(** Once its assertion has passed, the wide [load] is one sentinel
    exchange. *)
Lemma wide_load_accepted tg self order :
  NDEBUG tg || wide_load_accepts order = true ->
  atomic_impl_wide.load tg self order
  = Returned {| atomic_impl_wide.result := atomic_impl_wide.atomicValue self;
                atomic_impl_wide.this := self;
                atomic_impl_wide.issued := load_barrier tg order;
                atomic_impl_wide.executed
                  := cmpxchg16b (load_barrier tg order)
                       (atomic_impl_wide.atomicValue self) 0 0
                       {| word0 := 0; word1 := 0 |} |}.
Proof.
  intros Hacc. rewrite wide_load_unfold, assert_accepts by done. simpl.
  rewrite cmpxchg16b_reports_old, cmpxchg16b_sentinel, cmpxchg16b_implied.
  destruct self; reflexivity.
Qed.

(** C4: for every order among relaxed, acquire and consume, the wide cell's
    load is a compare-and-swap of the cell against an all-zero comparand
    (with an all-zero replacement): the one instruction it executes is that
    exchange, unfenced or fully fenced, called on the cell with comparand
    zero and replacement zero.  What load returns is the comparand after
    that instruction, which is the stored value whether the comparison held
    (the cell was zero) or not. *)
Theorem wide_load_returns_contents tg self order :
  order = memory_order_relaxed \/ order = memory_order_acquire
  \/ order = memory_order_consume ->
  exists b r,
    let v := atomic_impl_wide.atomicValue self in
    let cas := cmpxchg16b b v 0 0 {| word0 := 0; word1 := 0 |} in
    atomic_impl_wide.load tg self order = Returned r
    /\ (b = no_fence \/ b = full_fence)
    /\ atomic_impl_wide.executed r = cas
    /\ called_with (atomic_impl_wide.executed r)
       = {| Destination := v; ExchangeHigh := 0; ExchangeLow := 0;
            ComparandResult := {| word0 := 0; word1 := 0 |} |}
    /\ exchanged (atomic_impl_wide.executed r)
       = bool_decide (v = {| word0 := 0; word1 := 0 |})
    /\ atomic_impl_wide.issued r = implied cas
    /\ atomic_impl_wide.this r
       = {| atomic_impl_wide.atomicValue := Destination' cas |}
    /\ atomic_impl_wide.result r = ComparandResult' cas
    /\ (exchanged cas = true -> atomic_impl_wide.result r = v)
    /\ (exchanged cas = false -> atomic_impl_wide.result r = v).
Proof.
  intros Hord. apply wide_load_accepts_iff in Hord.
  exists (load_barrier tg order). eexists. cbv zeta.
  split.
  - rewrite wide_load_unfold, assert_accepts
      by (rewrite Hord; apply orb_true_r).
    simpl. reflexivity.
  - simpl. split.
    + unfold load_barrier.
      destruct (SWIFT_HAS_MSVC_ARM_ATOMICS tg); [|right; reflexivity].
      destruct (order != memory_order_acquire)%cxx; auto.
    + split; [reflexivity|]. split.
      * unfold cmpxchg16b. case_bool_decide; reflexivity.
      * split; [apply cmpxchg16b_exchanged|].
        rewrite cmpxchg16b_reports_old. auto.
Qed.

Lemma wide_load_returns_contents_witness :
  exists b r,
    atomic_impl_wide.load arm64_debug (atomic_impl_wide.construct (i128 7))
      memory_order_acquire = Returned r
    /\ (b = no_fence \/ b = full_fence)
    /\ atomic_impl_wide.executed r = cmpxchg16b b (i128 7) 0 0 (i128 0)
    /\ called_with (atomic_impl_wide.executed r)
       = {| Destination := i128 7; ExchangeHigh := 0; ExchangeLow := 0;
            ComparandResult := i128 0 |}
    /\ exchanged (atomic_impl_wide.executed r)
       = bool_decide (i128 7 = i128 0)
    /\ atomic_impl_wide.issued r
       = implied (cmpxchg16b b (i128 7) 0 0 (i128 0))
    /\ atomic_impl_wide.this r
       = {| atomic_impl_wide.atomicValue :=
              Destination' (cmpxchg16b b (i128 7) 0 0 (i128 0)) |}
    /\ atomic_impl_wide.result r
       = ComparandResult' (cmpxchg16b b (i128 7) 0 0 (i128 0))
    /\ (exchanged (cmpxchg16b b (i128 7) 0 0 (i128 0)) = true ->
        atomic_impl_wide.result r = i128 7)
    /\ (exchanged (cmpxchg16b b (i128 7) 0 0 (i128 0)) = false ->
        atomic_impl_wide.result r = i128 7).
Proof.
  apply (wide_load_returns_contents arm64_debug
           (atomic_impl_wide.construct (i128 7)) memory_order_acquire).
  right; left; reflexivity.
Defined.

(** C10: whatever the wide cell holds, zero included, a load leaves it as
    it was.  Either the assertion stops the call before anything is
    executed, or the sentinel exchange runs: on a non-zero cell the
    comparison fails and nothing is stored, on a zero cell it holds and
    zero is stored over zero. *)
Theorem wide_load_leaves_cell_unchanged tg self order :
  let v := atomic_impl_wide.atomicValue self in
  let zero := {| word0 := 0; word1 := 0 |} in
  (NDEBUG tg = false /\ wide_load_accepts order = false
   /\ atomic_impl_wide.load tg self order = AssertionFailed)
  \/ (exists b r,
        let cas := cmpxchg16b b v 0 0 zero in
        atomic_impl_wide.load tg self order = Returned r
        /\ atomic_impl_wide.this r
           = {| atomic_impl_wide.atomicValue := Destination' cas |}
        /\ atomic_impl_wide.this r = self
        /\ (v <> zero -> exchanged cas = false /\ Destination' cas = v)
        /\ (v = zero -> exchanged cas = true /\ Destination' cas = zero)).
Proof.
  cbv zeta.
  destruct (NDEBUG tg || wide_load_accepts order) eqn:Hacc.
  - right. exists (load_barrier tg order). eexists.
    split; [apply wide_load_accepted; exact Hacc|]. simpl.
    rewrite cmpxchg16b_sentinel, cmpxchg16b_exchanged.
    destruct self as [v]; simpl. split; [reflexivity|].
    split; [reflexivity|]. split.
    + intros Hv. rewrite bool_decide_eq_false_2; done.
    + intros ->. split; reflexivity.
  - left. apply orb_false_iff in Hacc as [Hdebug Hrej].
    split; [done|]. split; [done|].
    rewrite wide_load_unfold, assert_rejects; done.
Qed.

Lemma cew_barrier_specified tg successOrder failureOrder :
  SWIFT_HAS_MSVC_ARM_ATOMICS tg = true ->
  wide_cew_accepts successOrder failureOrder = true ->
  cew_barrier tg successOrder failureOrder
  = specified_variant successOrder failureOrder.
Proof.
  intros Harm Hacc. unfold cew_barrier. rewrite Harm.
  destruct successOrder, failureOrder; try discriminate Hacc; reflexivity.
Qed.

Lemma specified_variant_least successOrder failureOrder b :
  wide_cew_accepts successOrder failureOrder = true ->
  satisfies (specified_variant successOrder failureOrder)
    successOrder failureOrder = true
  /\ (satisfies b successOrder failureOrder = true ->
      weaker (specified_variant successOrder failureOrder) b = true).
Proof.
  intros Hacc.
  destruct successOrder, failureOrder; try discriminate Hacc;
    destruct b; split; try reflexivity; intros Hsat; try reflexivity;
    discriminate Hsat.
Qed.

(** C2: for every pair of orderings the wide cell accepts, its
    compare_exchange_weak executes, where the four variants exist, the one
    the specification names (no fence for relaxed success and a failure
    side other than acquire, acquire for relaxed success and acquire
    failure, release for release success and a failure side other than
    acquire, full fence otherwise); that variant gives what the two
    orderings need and is weaker than every variant that does.  Where the
    variants do not exist it executes the fully fenced instruction. *)
Theorem wide_cew_selects_weakest_variant
    tg self oldValue newValue successOrder failureOrder :
  (failureOrder = memory_order_relaxed \/ failureOrder = memory_order_acquire
   \/ failureOrder = memory_order_consume)
  /\ (successOrder = memory_order_relaxed
      \/ successOrder = memory_order_release) ->
  exists r,
    atomic_impl_wide.compare_exchange_weak tg self oldValue newValue
      successOrder failureOrder = Returned r
    /\ if SWIFT_HAS_MSVC_ARM_ATOMICS tg then
         atomic_impl_wide.issued r
         = specified_variant successOrder failureOrder
         /\ satisfies (atomic_impl_wide.issued r) successOrder failureOrder
            = true
         /\ forall b, satisfies b successOrder failureOrder = true ->
                      weaker (atomic_impl_wide.issued r) b = true
       else atomic_impl_wide.issued r = full_fence.
Proof.
  intros Hacc. apply wide_cew_accepts_iff in Hacc.
  rewrite wide_cew_unfold, assert_accepts
    by (rewrite Hacc; apply orb_true_r).
  simpl. eexists. split; [reflexivity|]. simpl.
  rewrite cmpxchg16b_implied.
  destruct (SWIFT_HAS_MSVC_ARM_ATOMICS tg) eqn:Harm.
  - rewrite cew_barrier_specified by done.
    split; [reflexivity|]. split.
    + apply (specified_variant_least _ _ no_fence Hacc).
    + intros b. apply (specified_variant_least _ _ b Hacc).
  - unfold cew_barrier. rewrite Harm. reflexivity.
Qed.

Lemma wide_cew_selects_weakest_variant_witness :
  exists r,
    atomic_impl_wide.compare_exchange_weak arm64_debug
      (atomic_impl_wide.construct (i128 5)) (i128 5) (i128 6)
      memory_order_release memory_order_consume = Returned r
    /\ atomic_impl_wide.issued r = release_fence
    /\ satisfies (atomic_impl_wide.issued r)
         memory_order_release memory_order_consume = true
    /\ forall b, satisfies b memory_order_release memory_order_consume = true
                 -> weaker (atomic_impl_wide.issued r) b = true.
Proof.
  apply (wide_cew_selects_weakest_variant arm64_debug
           (atomic_impl_wide.construct (i128 5)) (i128 5) (i128 6)
           memory_order_release memory_order_consume).
  split; [right; right; reflexivity | right; reflexivity].
Defined.

(** The generic [compare_exchange_weak] on a cell that holds something
    other than [oldValue]. *)
Lemma generic_cew_mismatch {Value : Type} `{EqDecision Value}
    spurious (self : atomic_impl.t Value) oldValue newValue
    successOrder failureOrder :
  oldValue <> std.stored (atomic_impl.value self) ->
  std.failure_order_ok failureOrder = true ->
  atomic_impl.compare_exchange_weak spurious self oldValue newValue
    successOrder failureOrder
  = Returned (false, std.stored (atomic_impl.value self), self).
Proof.
  intros Hne Hfail.
  unfold atomic_impl.compare_exchange_weak, std.compare_exchange_weak.
  rewrite Hfail, bool_decide_eq_false_2 by congruence. simpl.
  destruct self; reflexivity.
Qed.

(** The same for the wide cell, once its assertions have passed. *)
Lemma wide_cew_mismatch tg self oldValue newValue successOrder failureOrder :
  oldValue <> atomic_impl_wide.atomicValue self ->
  NDEBUG tg || wide_cew_accepts successOrder failureOrder = true ->
  atomic_impl_wide.compare_exchange_weak tg self oldValue newValue
    successOrder failureOrder
  = Returned {| atomic_impl_wide.result
                  := (false, atomic_impl_wide.atomicValue self);
                atomic_impl_wide.this := self;
                atomic_impl_wide.issued
                  := cew_barrier tg successOrder failureOrder;
                atomic_impl_wide.executed
                  := cmpxchg16b (cew_barrier tg successOrder failureOrder)
                       (atomic_impl_wide.atomicValue self)
                       (word1 newValue) (word0 newValue) oldValue |}.
Proof.
  intros Hne Hacc.
  rewrite wide_cew_unfold, assert_accepts by done. simpl.
  rewrite cmpxchg16b_differ by congruence.
  destruct self; reflexivity.
Qed.

(** The wide cell when the comparison holds. *)
Lemma wide_cew_match tg self newValue successOrder failureOrder :
  NDEBUG tg || wide_cew_accepts successOrder failureOrder = true ->
  atomic_impl_wide.compare_exchange_weak tg self
    (atomic_impl_wide.atomicValue self) newValue successOrder failureOrder
  = Returned {| atomic_impl_wide.result
                  := (true, atomic_impl_wide.atomicValue self);
                atomic_impl_wide.this
                  := {| atomic_impl_wide.atomicValue := newValue |};
                atomic_impl_wide.issued
                  := cew_barrier tg successOrder failureOrder;
                atomic_impl_wide.executed
                  := cmpxchg16b (cew_barrier tg successOrder failureOrder)
                       (atomic_impl_wide.atomicValue self)
                       (word1 newValue) (word0 newValue)
                       (atomic_impl_wide.atomicValue self) |}.
Proof.
  intros Hacc.
  rewrite wide_cew_unfold, assert_accepts by done. simpl.
  rewrite cmpxchg16b_equal. destruct newValue; reflexivity.
Qed.

(** C1, as the code has it: on either cell holding v, a
    compare_exchange_weak whose expected differs from v and whose orderings
    the cell takes (for std::atomic a failure order other than release and
    acq_rel; for the wide cell the orderings its assertions accept, or a
    build without assertions) returns failure, puts v into expected and
    leaves the cell as it was, so that a load with an ordering the cell
    takes returns v. *)
Theorem cew_mismatch_fails_cell_unchanged :
  (forall (Value : Type) (Heq : EqDecision Value) spurious
          (self : atomic_impl.t Value) expected desired
          successOrder failureOrder order,
      expected <> std.stored (atomic_impl.value self) ->
      std.failure_order_ok failureOrder = true ->
      std.load_order_ok order = true ->
      atomic_impl.compare_exchange_weak spurious self expected desired
        successOrder failureOrder
      = Returned (false, std.stored (atomic_impl.value self), self)
      /\ atomic_impl.load self order
         = Returned (std.stored (atomic_impl.value self)))
  /\ (forall tg self expected desired successOrder failureOrder order,
        expected <> atomic_impl_wide.atomicValue self ->
        NDEBUG tg || wide_cew_accepts successOrder failureOrder = true ->
        NDEBUG tg || wide_load_accepts order = true ->
        exists r r',
          atomic_impl_wide.compare_exchange_weak tg self expected desired
            successOrder failureOrder = Returned r
          /\ atomic_impl_wide.result r
             = (false, atomic_impl_wide.atomicValue self)
          /\ atomic_impl_wide.this r = self
          /\ atomic_impl_wide.load tg (atomic_impl_wide.this r) order
             = Returned r'
          /\ atomic_impl_wide.result r' = atomic_impl_wide.atomicValue self).
Proof.
  split.
  - intros Value Heq spurious self expected desired so fo order Hne Hfo Hlo.
    split; [apply generic_cew_mismatch; done|].
    unfold atomic_impl.load, std.load. rewrite Hlo. reflexivity.
  - intros tg self expected desired so fo order Hne Hcew Hload.
    eexists. eexists.
    split; [apply wide_cew_mismatch; done|]. simpl.
    split; [reflexivity|]. split; [reflexivity|].
    split; [apply wide_load_accepted; done|]. reflexivity.
Qed.

Lemma cew_mismatch_fails_cell_unchanged_witness :
  (atomic_impl.compare_exchange_weak false (atomic_impl.construct 7) 3 9
     memory_order_release memory_order_relaxed
   = Returned (false, 7, atomic_impl.construct 7)
   /\ atomic_impl.load (atomic_impl.construct 7) memory_order_acquire
      = Returned 7)
  /\ (exists r r',
        atomic_impl_wide.compare_exchange_weak x64_debug
          (atomic_impl_wide.construct (i128 7)) (i128 3) (i128 9)
          memory_order_release memory_order_relaxed = Returned r
        /\ atomic_impl_wide.result r = (false, i128 7)
        /\ atomic_impl_wide.this r = atomic_impl_wide.construct (i128 7)
        /\ atomic_impl_wide.load x64_debug (atomic_impl_wide.this r)
             memory_order_acquire = Returned r'
        /\ atomic_impl_wide.result r' = i128 7).
Proof.
  split.
  - apply (proj1 cew_mismatch_fails_cell_unchanged Z _ false
             (atomic_impl.construct 7) 3 9
             memory_order_release memory_order_relaxed memory_order_acquire);
      [discriminate | reflexivity | reflexivity].
  - apply (proj2 cew_mismatch_fails_cell_unchanged x64_debug
             (atomic_impl_wide.construct (i128 7)) (i128 3) (i128 9)
             memory_order_release memory_order_relaxed memory_order_acquire);
      [discriminate | reflexivity | reflexivity].
Defined.

(** C1 as stated fails: in a build with assertions the wide cell holding 7
    does not return from compare_exchange_weak(expected = 3, desired = 9,
    success_order = acquire, failure_order = relaxed); the second assertion
    stops it. *)
Lemma cew_mismatch_rejected_ordering :
  i128 3 <> i128 7
  /\ atomic_impl_wide.compare_exchange_weak x64_debug
       (atomic_impl_wide.construct (i128 7)) (i128 3) (i128 9)
       memory_order_acquire memory_order_relaxed = AssertionFailed
  /\ ~ (exists r,
          atomic_impl_wide.compare_exchange_weak x64_debug
            (atomic_impl_wide.construct (i128 7)) (i128 3) (i128 9)
            memory_order_acquire memory_order_relaxed = Returned r
          /\ atomic_impl_wide.result r = (false, i128 7)).
Proof.
  split; [discriminate|]. split; [reflexivity|].
  intros [r [Hr _]]. discriminate Hr.
Qed.

(** C5, as the code has it: in a build with assertions the wide cell's
    load trips its assertion for release and for acq_rel (for every order
    other than relaxed, acquire and consume), so a wide load that returns
    was called with one of those three.  The generic cell checks nothing:
    its load is std::atomic's load with the order passed on, and no
    assertion of this header can fire in it. *)
Theorem load_ordering_checked_by_wide_cell_only tg :
  NDEBUG tg = false ->
  (forall self order,
      (order = memory_order_release \/ order = memory_order_acq_rel ->
       atomic_impl_wide.load tg self order = AssertionFailed)
      /\ (atomic_impl_wide.load tg self order = AssertionFailed
          <-> ~ (order = memory_order_relaxed \/ order = memory_order_acquire
                 \/ order = memory_order_consume))
      /\ (forall r, atomic_impl_wide.load tg self order = Returned r ->
                    order = memory_order_relaxed
                    \/ order = memory_order_acquire
                    \/ order = memory_order_consume))
  /\ (forall (Value : Type) (self : atomic_impl.t Value) order,
        atomic_impl.load self order
        = std.load (atomic_impl.value self) order
        /\ atomic_impl.load self order <> AssertionFailed).
Proof.
  intros Hdebug. split.
  - intros self order. rewrite wide_load_unfold, <- wide_load_accepts_iff.
    destruct (wide_load_accepts order) eqn:Hacc.
    + rewrite assert_accepts by (rewrite Hdebug; done). simpl.
      split; [|split].
      * intros [-> | ->]; discriminate Hacc.
      * split; [discriminate | intros Hno; destruct Hno; reflexivity].
      * intros r _. apply wide_load_accepts_iff, Hacc.
    + rewrite assert_rejects by done. simpl.
      split; [|split]; done.
  - intros Value self order. split; [reflexivity|].
    unfold atomic_impl.load, std.load.
    destruct (std.load_order_ok order); discriminate.
Qed.

Lemma load_ordering_checked_by_wide_cell_only_witness :
  atomic_impl_wide.load x64_debug (atomic_impl_wide.construct (i128 7))
    memory_order_release = AssertionFailed
  /\ atomic_impl.load (atomic_impl.construct 7) memory_order_release
     <> AssertionFailed.
Proof.
  pose proof (load_ordering_checked_by_wide_cell_only x64_debug eq_refl)
    as [Hwide Hgeneric].
  split.
  - destruct (Hwide (atomic_impl_wide.construct (i128 7))
                memory_order_release) as [Hrel _].
    apply Hrel. left; reflexivity.
  - apply (Hgeneric Z (atomic_impl.construct 7) memory_order_release).
Defined.

(** C5 as stated fails on the generic cell: its load has no assertion, so
    in a build with assertions load(release) ends in whatever std::atomic
    does with a broken precondition, not in an assertion of the cell. *)
Lemma generic_load_release_not_asserted :
  NDEBUG x64_debug = false
  /\ atomic_impl.load (atomic_impl.construct 7) memory_order_release
     <> AssertionFailed
  /\ atomic_impl.load (atomic_impl.construct 7) memory_order_acq_rel
     <> AssertionFailed.
Proof. split; [reflexivity|]. split; discriminate. Qed.

(** A successful generic [compare_exchange_weak] leaves [newValue] in the
    cell. *)
Lemma generic_cew_success {Value : Type} `{EqDecision Value}
    spurious (self : atomic_impl.t Value) oldValue newValue
    successOrder failureOrder oldValue' self' :
  atomic_impl.compare_exchange_weak spurious self oldValue newValue
    successOrder failureOrder = Returned (true, oldValue', self') ->
  self' = atomic_impl.construct newValue
  /\ oldValue' = oldValue
  /\ std.stored (atomic_impl.value self) = oldValue.
Proof.
  unfold atomic_impl.compare_exchange_weak, std.compare_exchange_weak,
    atomic_impl.construct.
  destruct (std.failure_order_ok failureOrder); [|discriminate].
  case_bool_decide; simpl; destruct spurious; simpl; intros [= <- <-];
    done.
Qed.

(** So does a successful wide one. *)
Lemma wide_cew_success tg self oldValue newValue successOrder failureOrder r :
  atomic_impl_wide.compare_exchange_weak tg self oldValue newValue
    successOrder failureOrder = Returned r ->
  fst (atomic_impl_wide.result r) = true ->
  atomic_impl_wide.this r = atomic_impl_wide.construct newValue
  /\ snd (atomic_impl_wide.result r) = oldValue
  /\ atomic_impl_wide.atomicValue self = oldValue.
Proof.
  rewrite wide_cew_unfold. destruct (assert _ _); simpl; try discriminate.
  intros [= <-]. simpl. rewrite cmpxchg16b_exchanged.
  intros Heq%bool_decide_eq_true. subst oldValue.
  rewrite cmpxchg16b_equal. simpl. destruct newValue; done.
Qed.

(** C7: on either cell constructed with 0, when
    compare_exchange_weak(expected = 0, desired = 42, release, relaxed)
    reports success, the load(acquire) that follows returns 42.  The call
    does report success: always on the wide cell, and on the generic cell
    whenever the platform does not make it fail spuriously. *)
Theorem load_reflects_last_successful_store :
  (forall spurious oldValue' self',
      atomic_impl.compare_exchange_weak spurious (atomic_impl.construct 0)
        0 42 memory_order_release memory_order_relaxed
      = Returned (true, oldValue', self') ->
      atomic_impl.load self' memory_order_acquire = Returned 42)
  /\ (forall tg r,
        atomic_impl_wide.compare_exchange_weak tg
          (atomic_impl_wide.construct (i128 0)) (i128 0) (i128 42)
          memory_order_release memory_order_relaxed = Returned r ->
        fst (atomic_impl_wide.result r) = true ->
        exists r',
          atomic_impl_wide.load tg (atomic_impl_wide.this r)
            memory_order_acquire = Returned r'
          /\ atomic_impl_wide.result r' = i128 42)
  /\ atomic_impl.compare_exchange_weak false (atomic_impl.construct 0)
       0 42 memory_order_release memory_order_relaxed
     = Returned (true, 0, atomic_impl.construct 42)
  /\ (forall tg, exists r,
        atomic_impl_wide.compare_exchange_weak tg
          (atomic_impl_wide.construct (i128 0)) (i128 0) (i128 42)
          memory_order_release memory_order_relaxed = Returned r
        /\ fst (atomic_impl_wide.result r) = true).
Proof.
  split; [|split; [|split]].
  - intros spurious oldValue' self' Hcew.
    apply generic_cew_success in Hcew as [-> _]. reflexivity.
  - intros tg r Hcew Hok.
    destruct (wide_cew_success _ _ _ _ _ _ _ Hcew Hok) as [-> _].
    eexists. split; [apply wide_load_accepted, orb_true_r|]. reflexivity.
  - reflexivity.
  - intros tg. eexists.
    split; [apply (wide_cew_match tg (atomic_impl_wide.construct (i128 0))),
              orb_true_r|].
    reflexivity.
Qed.

Lemma load_reflects_last_successful_store_witness :
  atomic_impl.load (atomic_impl.construct 42) memory_order_acquire
  = Returned 42
  /\ (exists r',
        atomic_impl_wide.load arm64_debug
          (atomic_impl_wide.construct (i128 42)) memory_order_acquire
        = Returned r'
        /\ atomic_impl_wide.result r' = i128 42).
Proof.
  destruct load_reflects_last_successful_store as [Hgeneric [Hwide _]].
  split.
  - apply (Hgeneric false 0 (atomic_impl.construct 42)). reflexivity.
  - apply (Hwide arm64_debug
             {| atomic_impl_wide.result := (true, i128 0);
                atomic_impl_wide.this := atomic_impl_wide.construct (i128 42);
                atomic_impl_wide.issued := release_fence;
                atomic_impl_wide.executed
                  := _InterlockedCompareExchange128_rel
                       (i128 0) 0 42 (i128 0) |});
      reflexivity.
Defined.

(** One call, on two cells that hold the same value. *)
Lemma step_agrees tg c cg cw :
  client.legal_for_both c = true ->
  std.stored (atomic_impl.value cg) = atomic_impl_wide.atomicValue cw ->
  exists o cg' cw',
    client.generic_step false c cg = Returned (o, cg')
    /\ client.wide_step tg c cw = Returned (o, cw')
    /\ std.stored (atomic_impl.value cg')
       = atomic_impl_wide.atomicValue cw'.
Proof.
  assert (Hpack : forall (o : client.observation)
                     (x : atomic_impl.t int64x2) (y : atomic_impl_wide.t),
             std.stored (atomic_impl.value x) = atomic_impl_wide.atomicValue y ->
             exists o' cg' cw',
               Returned (o, x) = Returned (o', cg')
               /\ Returned (o, y) = Returned (o', cw')
               /\ std.stored (atomic_impl.value cg')
                  = atomic_impl_wide.atomicValue cw')
    by (intros o x y Hxy; exists o, x, y; done).
  intros Hlegal Hsame. destruct c as [order | expected desired so fo];
    simpl in Hlegal; apply andb_true_iff in Hlegal as [Hstd Hwide]; simpl.
  - rewrite wide_load_accepted by (rewrite Hwide; apply orb_true_r).
    unfold atomic_impl.load, std.load. rewrite Hstd. simpl.
    rewrite Hsame. apply Hpack, Hsame.
  - destruct (decide (expected = atomic_impl_wide.atomicValue cw))
      as [-> | Hne].
    + rewrite wide_cew_match by (rewrite Hwide; apply orb_true_r).
      unfold atomic_impl.compare_exchange_weak, std.compare_exchange_weak.
      rewrite Hstd, bool_decide_eq_true_2 by done. simpl.
      apply Hpack. reflexivity.
    + rewrite wide_cew_mismatch by (done || rewrite Hwide; apply orb_true_r).
      rewrite generic_cew_mismatch by congruence. simpl.
      rewrite Hsame. apply Hpack, Hsame.
Qed.

(** C6: run any list of load and compare_exchange_weak calls whose
    orderings both cells take, on a generic cell and on a wide cell
    constructed with the same value, the generic one on a platform that
    lets no call fail spuriously.  Every call returns on both, the two runs
    hand back the same success flags, the same values written to expected
    and the same loaded values, and the two cells end with the same stored
    value. *)
Theorem generic_and_wide_cells_agree tg spurious calls v :
  (forall i, spurious i = false) ->
  forallb client.legal_for_both calls = true ->
  exists obs cg cw,
    client.run_generic spurious calls (atomic_impl.construct v)
    = Returned (obs, cg)
    /\ client.run_wide tg calls (atomic_impl_wide.construct v)
       = Returned (obs, cw)
    /\ std.stored (atomic_impl.value cg) = atomic_impl_wide.atomicValue cw
    /\ length obs = length calls.
Proof.
  intros Hdet Hlegal. unfold client.run_generic, client.run_wide.
  assert (Hsame : std.stored (atomic_impl.value (atomic_impl.construct v))
                  = atomic_impl_wide.atomicValue
                      (atomic_impl_wide.construct v)) by reflexivity.
  revert Hsame.
  generalize (atomic_impl.construct v) (atomic_impl_wide.construct v) 0%nat.
  induction calls as [|c rest IH]; intros cg cw i Hsame.
  - exists [], cg, cw. done.
  - simpl in Hlegal. apply andb_true_iff in Hlegal as [Hc Hrest].
    destruct (step_agrees tg c cg cw Hc Hsame)
      as (o & cg1 & cw1 & Hg & Hw & Hsame1).
    destruct (IH Hrest cg1 cw1 (S i) Hsame1)
      as (obs & cg' & cw' & Hrg & Hrw & Hfinal & Hlen).
    exists (o :: obs), cg', cw'. simpl.
    rewrite Hdet, Hg, Hw. simpl. rewrite Hrg, Hrw. simpl.
    rewrite Hlen. done.
Qed.

Lemma generic_and_wide_cells_agree_witness :
  exists obs cg cw,
    client.run_generic (fun _ => false)
      [client.CompareExchangeWeak (i128 3) (i128 9)
         memory_order_release memory_order_relaxed;
       client.CompareExchangeWeak (i128 7) (i128 9)
         memory_order_release memory_order_acquire;
       client.Load memory_order_acquire]
      (atomic_impl.construct (i128 7))
    = Returned (obs, cg)
    /\ client.run_wide arm64_debug
         [client.CompareExchangeWeak (i128 3) (i128 9)
            memory_order_release memory_order_relaxed;
          client.CompareExchangeWeak (i128 7) (i128 9)
            memory_order_release memory_order_acquire;
          client.Load memory_order_acquire]
         (atomic_impl_wide.construct (i128 7))
       = Returned (obs, cw)
    /\ std.stored (atomic_impl.value cg) = atomic_impl_wide.atomicValue cw
    /\ length obs = 3%nat.
Proof.
  apply (generic_and_wide_cells_agree arm64_debug (fun _ => false)
           [client.CompareExchangeWeak (i128 3) (i128 9)
              memory_order_release memory_order_relaxed;
            client.CompareExchangeWeak (i128 7) (i128 9)
              memory_order_release memory_order_acquire;
            client.Load memory_order_acquire]
           (i128 7));
    reflexivity.
Defined.

(** Without the condition on the platform the two cells can be told
    apart: a spurious failure of the generic cell has no counterpart in the
    wide one, whose instruction fails only on a mismatch. *)
Example spurious_failure_is_observable :
  client.run_generic (fun _ => true)
    [client.CompareExchangeWeak (i128 5) (i128 6)
       memory_order_release memory_order_relaxed]
    (atomic_impl.construct (i128 5))
  = Returned ([client.Exchanged false (i128 5)],
              atomic_impl.construct (i128 5))
  /\ client.run_wide x64_debug
       [client.CompareExchangeWeak (i128 5) (i128 6)
          memory_order_release memory_order_relaxed]
       (atomic_impl_wide.construct (i128 5))
     = Returned ([client.Exchanged true (i128 5)],
                 atomic_impl_wide.construct (i128 6)).
Proof. split; reflexivity. Qed.

(** * Further properties of the header *)

(** X1: for an order it accepts, the wide cell's load (lines 85-108)
    executes the unfenced instruction exactly when the ARM variants exist
    and the order is not acquire, and the fully fenced one otherwise; it
    never executes an acquire-only or release-only variant, and what it
    executes gives acquire whenever acquire was asked for. *)
Theorem wide_load_barrier_selection tg self order :
  order = memory_order_relaxed \/ order = memory_order_acquire
  \/ order = memory_order_consume ->
  exists r,
    atomic_impl_wide.load tg self order = Returned r
    /\ (SWIFT_HAS_MSVC_ARM_ATOMICS tg = true /\ order <> memory_order_acquire
        -> atomic_impl_wide.issued r = no_fence)
    /\ (SWIFT_HAS_MSVC_ARM_ATOMICS tg = false \/ order = memory_order_acquire
        -> atomic_impl_wide.issued r = full_fence)
    /\ atomic_impl_wide.issued r <> acquire_fence
    /\ atomic_impl_wide.issued r <> release_fence
    /\ (order = memory_order_acquire ->
        gives_acquire (atomic_impl_wide.issued r) = true).
Proof.
  intros Hord. apply wide_load_accepts_iff in Hord.
  eexists. split.
  - apply wide_load_accepted. rewrite Hord. apply orb_true_r.
  - simpl. unfold load_barrier.
    destruct (SWIFT_HAS_MSVC_ARM_ATOMICS tg), order;
      try discriminate Hord; simpl; intuition congruence.
Qed.

Lemma wide_load_barrier_selection_witness :
  exists r,
    atomic_impl_wide.load arm64_debug (atomic_impl_wide.construct (i128 7))
      memory_order_consume = Returned r
    /\ atomic_impl_wide.issued r = no_fence.
Proof.
  destruct (wide_load_barrier_selection arm64_debug
              (atomic_impl_wide.construct (i128 7)) memory_order_consume)
    as (r & Hr & Hnf & _).
  - right; right; reflexivity.
  - exists r. split; [exact Hr|]. apply Hnf. split; [reflexivity|discriminate].
Defined.

(** X2: the wide cell's compare_exchange_weak (lines 110-148), once past
    its assertions, is a strong exchange: it reports success exactly when
    the expected value equals the stored one, never fails otherwise, puts
    the previously stored value into expected in both cases, and on
    success leaves exactly the new value in the cell (its two words go to
    the instruction as high and low half and come back in place). *)
Theorem wide_cew_succeeds_iff_equal
    tg self oldValue newValue successOrder failureOrder :
  NDEBUG tg || wide_cew_accepts successOrder failureOrder = true ->
  exists r,
    atomic_impl_wide.compare_exchange_weak tg self oldValue newValue
      successOrder failureOrder = Returned r
    /\ (fst (atomic_impl_wide.result r) = true
        <-> oldValue = atomic_impl_wide.atomicValue self)
    /\ snd (atomic_impl_wide.result r) = atomic_impl_wide.atomicValue self
    /\ atomic_impl_wide.this r
       = (if fst (atomic_impl_wide.result r)
          then atomic_impl_wide.construct newValue
          else self).
Proof.
  intros Hacc.
  destruct (decide (oldValue = atomic_impl_wide.atomicValue self))
    as [-> | Hne].
  - eexists. split; [apply wide_cew_match, Hacc|]. simpl. done.
  - eexists. split; [apply wide_cew_mismatch; done|]. simpl.
    split; [|done]. split; [discriminate | done].
Qed.

Lemma wide_cew_succeeds_iff_equal_witness :
  exists r,
    atomic_impl_wide.compare_exchange_weak arm64_release
      (atomic_impl_wide.construct {| word0 := 1; word1 := 2 |})
      {| word0 := 1; word1 := 2 |} {| word0 := 3; word1 := 4 |}
      memory_order_release memory_order_acquire = Returned r
    /\ (fst (atomic_impl_wide.result r) = true
        <-> {| word0 := 1; word1 := 2 |} = {| word0 := 1; word1 := 2 |})
    /\ snd (atomic_impl_wide.result r) = {| word0 := 1; word1 := 2 |}
    /\ atomic_impl_wide.this r
       = (if fst (atomic_impl_wide.result r)
          then atomic_impl_wide.construct {| word0 := 3; word1 := 4 |}
          else atomic_impl_wide.construct {| word0 := 1; word1 := 2 |}).
Proof.
  apply (wide_cew_succeeds_iff_equal arm64_release
           (atomic_impl_wide.construct {| word0 := 1; word1 := 2 |})
           {| word0 := 1; word1 := 2 |} {| word0 := 3; word1 := 4 |}
           memory_order_release memory_order_acquire).
  reflexivity.
Defined.

(** X3: on the wide cell the target and the orderings decide only which
    instruction runs.  Two compare_exchange_weak calls with the same cell,
    expected and desired values return the same flag, write back the same
    value and leave the same cell, whatever targets and accepted ordering
    pairs they are made with; two loads likewise return the same value. *)
Theorem wide_values_independent_of_ordering
    tg1 tg2 self oldValue newValue so1 fo1 so2 fo2 order1 order2 :
  NDEBUG tg1 || wide_cew_accepts so1 fo1 = true ->
  NDEBUG tg2 || wide_cew_accepts so2 fo2 = true ->
  NDEBUG tg1 || wide_load_accepts order1 = true ->
  NDEBUG tg2 || wide_load_accepts order2 = true ->
  (exists r1 r2,
      atomic_impl_wide.compare_exchange_weak tg1 self oldValue newValue
        so1 fo1 = Returned r1
      /\ atomic_impl_wide.compare_exchange_weak tg2 self oldValue newValue
           so2 fo2 = Returned r2
      /\ atomic_impl_wide.result r1 = atomic_impl_wide.result r2
      /\ atomic_impl_wide.this r1 = atomic_impl_wide.this r2)
  /\ (exists l1 l2,
        atomic_impl_wide.load tg1 self order1 = Returned l1
        /\ atomic_impl_wide.load tg2 self order2 = Returned l2
        /\ atomic_impl_wide.result l1 = atomic_impl_wide.result l2
        /\ atomic_impl_wide.this l1 = atomic_impl_wide.this l2).
Proof.
  intros Hc1 Hc2 Hl1 Hl2. split.
  - rewrite !wide_cew_unfold, !assert_accepts by done. simpl.
    eexists. eexists. split; [reflexivity|]. split; [reflexivity|].
    simpl. unfold cmpxchg16b. case_bool_decide; done.
  - rewrite !wide_load_accepted by done.
    eexists. eexists. split; [reflexivity|]. split; [reflexivity|]. done.
Qed.

Lemma wide_values_independent_of_ordering_witness :
  (exists r1 r2,
      atomic_impl_wide.compare_exchange_weak x64_debug
        (atomic_impl_wide.construct (i128 5)) (i128 5) (i128 6)
        memory_order_relaxed memory_order_relaxed = Returned r1
      /\ atomic_impl_wide.compare_exchange_weak arm64_release
           (atomic_impl_wide.construct (i128 5)) (i128 5) (i128 6)
           memory_order_seq_cst memory_order_seq_cst = Returned r2
      /\ atomic_impl_wide.result r1 = atomic_impl_wide.result r2
      /\ atomic_impl_wide.this r1 = atomic_impl_wide.this r2)
  /\ (exists l1 l2,
        atomic_impl_wide.load x64_debug
          (atomic_impl_wide.construct (i128 5)) memory_order_acquire
        = Returned l1
        /\ atomic_impl_wide.load arm64_release
             (atomic_impl_wide.construct (i128 5)) memory_order_seq_cst
           = Returned l2
        /\ atomic_impl_wide.result l1 = atomic_impl_wide.result l2
        /\ atomic_impl_wide.this l1 = atomic_impl_wide.this l2).
Proof.
  apply (wide_values_independent_of_ordering x64_debug arm64_release
           (atomic_impl_wide.construct (i128 5)) (i128 5) (i128 6)
           memory_order_relaxed memory_order_relaxed
           memory_order_seq_cst memory_order_seq_cst
           memory_order_acquire memory_order_seq_cst);
    reflexivity.
Defined.

(** X4: in a build without assertions, on a target with the ARM variants,
    orderings outside the asserted sets are not strengthened.  A
    compare_exchange_weak whose success order is anything but relaxed and
    whose failure order is anything but acquire (seq_cst and seq_cst, say)
    runs the release-only instruction, which gives no acquire; a load with
    any order but acquire (seq_cst, say) runs the unfenced one. *)
Theorem unchecked_orderings_take_weak_variants
    tg self oldValue newValue successOrder failureOrder order :
  NDEBUG tg = true ->
  SWIFT_HAS_MSVC_ARM_ATOMICS tg = true ->
  successOrder <> memory_order_relaxed ->
  failureOrder <> memory_order_acquire ->
  order <> memory_order_acquire ->
  (exists r,
      atomic_impl_wide.compare_exchange_weak tg self oldValue newValue
        successOrder failureOrder = Returned r
      /\ atomic_impl_wide.issued r = release_fence
      /\ gives_acquire (atomic_impl_wide.issued r) = false)
  /\ (exists l,
        atomic_impl_wide.load tg self order = Returned l
        /\ atomic_impl_wide.issued l = no_fence).
Proof.
  intros Hndebug Harm Hso Hfo Hord. split.
  - rewrite wide_cew_unfold, assert_accepts by (rewrite Hndebug; done).
    simpl. eexists. split; [reflexivity|]. simpl.
    rewrite cmpxchg16b_implied. unfold cew_barrier. rewrite Harm.
    destruct successOrder, failureOrder; try congruence; done.
  - rewrite wide_load_accepted by (rewrite Hndebug; done).
    eexists. split; [reflexivity|]. simpl.
    unfold load_barrier. rewrite Harm.
    destruct order; try congruence; done.
Qed.

Lemma unchecked_orderings_take_weak_variants_witness :
  (exists r,
      atomic_impl_wide.compare_exchange_weak arm64_release
        (atomic_impl_wide.construct (i128 5)) (i128 5) (i128 6)
        memory_order_seq_cst memory_order_seq_cst = Returned r
      /\ atomic_impl_wide.issued r = release_fence
      /\ gives_acquire (atomic_impl_wide.issued r) = false)
  /\ (exists l,
        atomic_impl_wide.load arm64_release
          (atomic_impl_wide.construct (i128 5)) memory_order_seq_cst
        = Returned l
        /\ atomic_impl_wide.issued l = no_fence).
Proof.
  apply (unchecked_orderings_take_weak_variants arm64_release
           (atomic_impl_wide.construct (i128 5)) (i128 5) (i128 6)
           memory_order_seq_cst memory_order_seq_cst memory_order_seq_cst);
    (reflexivity || discriminate).
Defined.

(** X5: the header's consume macro (lines 29-33) stands for relaxed or for
    consume, and for relaxed on every target where the ARM variants are
    enabled (lines 35-39).  A wide load with it never trips the assertion,
    on any target or build: it returns the stored value, leaves the cell
    alone, and runs the unfenced instruction exactly where the ARM variants
    are enabled. *)
Theorem consume_macro_load tg self :
  (SWIFT_MEMORY_ORDER_CONSUME tg = memory_order_relaxed
   \/ SWIFT_MEMORY_ORDER_CONSUME tg = memory_order_consume)
  /\ (SWIFT_HAS_MSVC_ARM_ATOMICS tg = true ->
      SWIFT_MEMORY_ORDER_CONSUME tg = memory_order_relaxed)
  /\ exists r,
       atomic_impl_wide.load tg self (SWIFT_MEMORY_ORDER_CONSUME tg)
       = Returned r
       /\ atomic_impl_wide.result r = atomic_impl_wide.atomicValue self
       /\ atomic_impl_wide.this r = self
       /\ atomic_impl_wide.issued r
          = (if SWIFT_HAS_MSVC_ARM_ATOMICS tg then no_fence else full_fence).
Proof.
  split; [|split].
  - unfold SWIFT_MEMORY_ORDER_CONSUME. destruct (_ || _); auto.
  - unfold SWIFT_HAS_MSVC_ARM_ATOMICS, SWIFT_MEMORY_ORDER_CONSUME.
    destruct (_M_ARM tg), (__arm__ tg), (__arm64__ tg), (__aarch64__ tg),
      (_M_ARM64 tg); simpl; (reflexivity || discriminate).
  - eexists. split.
    + apply wide_load_accepted.
      destruct (consume_macro_accepted tg) as [-> _]. apply orb_true_r.
    + simpl. split; [reflexivity|]. split; [reflexivity|].
      unfold load_barrier, SWIFT_MEMORY_ORDER_CONSUME.
      destruct (SWIFT_HAS_MSVC_ARM_ATOMICS tg); [|reflexivity].
      destruct (_ || _); reflexivity.
Qed.

Lemma consume_macro_load_witness :
  SWIFT_MEMORY_ORDER_CONSUME arm64_debug = memory_order_relaxed.
Proof.
  apply (proj1 (proj2 (consume_macro_load arm64_debug
                         (atomic_impl_wide.construct (i128 0))))).
  reflexivity.
Defined.

(** X6: with the consume macro as failure order and relaxed or release as
    success order, the wide compare_exchange_weak passes both assertions on
    every target and build; where the ARM variants are enabled it runs the
    unfenced instruction for relaxed and the release-only one for release,
    elsewhere the fully fenced one. *)
Theorem consume_macro_failure_order
    tg self oldValue newValue successOrder :
  successOrder = memory_order_relaxed \/ successOrder = memory_order_release ->
  exists r,
    atomic_impl_wide.compare_exchange_weak tg self oldValue newValue
      successOrder (SWIFT_MEMORY_ORDER_CONSUME tg) = Returned r
    /\ atomic_impl_wide.issued r
       = (if SWIFT_HAS_MSVC_ARM_ATOMICS tg
          then if bool_decide (successOrder = memory_order_relaxed)
               then no_fence else release_fence
          else full_fence).
Proof.
  intros Hso.
  assert (Hacc : wide_cew_accepts successOrder (SWIFT_MEMORY_ORDER_CONSUME tg)
                 = true).
  { apply wide_cew_accepts_iff. split; [|exact Hso].
    unfold SWIFT_MEMORY_ORDER_CONSUME. destruct (_ || _); auto. }
  rewrite wide_cew_unfold, assert_accepts by (rewrite Hacc; apply orb_true_r).
  simpl. eexists. split; [reflexivity|]. simpl.
  rewrite cmpxchg16b_implied. unfold cew_barrier, SWIFT_MEMORY_ORDER_CONSUME.
  destruct (SWIFT_HAS_MSVC_ARM_ATOMICS tg); [|reflexivity].
  destruct Hso as [-> | ->]; destruct (_ || _); reflexivity.
Qed.

Lemma consume_macro_failure_order_witness :
  exists r,
    atomic_impl_wide.compare_exchange_weak arm64_debug
      (atomic_impl_wide.construct (i128 5)) (i128 5) (i128 6)
      memory_order_release (SWIFT_MEMORY_ORDER_CONSUME arm64_debug)
    = Returned r
    /\ atomic_impl_wide.issued r = release_fence.
Proof.
  apply (consume_macro_failure_order arm64_debug
           (atomic_impl_wide.construct (i128 5)) (i128 5) (i128 6)
           memory_order_release).
  right; reflexivity.
Defined.

(** X7: retrying after a failure.  When a compare_exchange_weak has
    reported failure, the same call made again with the value it wrote to
    expected succeeds and leaves the desired value in the cell: always on
    the wide cell, and on the generic cell when the platform does not make
    the second call fail spuriously (the first failure may itself have
    been spurious). *)
Theorem retry_with_written_back_value_succeeds :
  (forall tg self expected desired successOrder failureOrder r,
      atomic_impl_wide.compare_exchange_weak tg self expected desired
        successOrder failureOrder = Returned r ->
      fst (atomic_impl_wide.result r) = false ->
      exists r',
        atomic_impl_wide.compare_exchange_weak tg (atomic_impl_wide.this r)
          (snd (atomic_impl_wide.result r)) desired
          successOrder failureOrder = Returned r'
        /\ fst (atomic_impl_wide.result r') = true
        /\ atomic_impl_wide.this r' = atomic_impl_wide.construct desired)
  /\ (forall (Value : Type) (Heq : EqDecision Value) spurious
             (self : atomic_impl.t Value) expected desired
             successOrder failureOrder expected' self',
        atomic_impl.compare_exchange_weak spurious self expected desired
          successOrder failureOrder = Returned (false, expected', self') ->
        atomic_impl.compare_exchange_weak false self' expected' desired
          successOrder failureOrder
        = Returned (true, expected', atomic_impl.construct desired)).
Proof.
  split.
  - intros tg self expected desired so fo r Hcew Hfail.
    assert (Hacc : NDEBUG tg || wide_cew_accepts so fo = true).
    { rewrite wide_cew_unfold in Hcew. unfold assert in Hcew.
      destruct (NDEBUG tg); [done|].
      destruct (wide_cew_accepts so fo); [done | discriminate Hcew]. }
    destruct (decide (expected = atomic_impl_wide.atomicValue self))
      as [-> | Hne].
    + rewrite wide_cew_match in Hcew by done.
      injection Hcew as <-. discriminate Hfail.
    + rewrite wide_cew_mismatch in Hcew by done.
      injection Hcew as <-. simpl.
      eexists. split; [apply wide_cew_match, Hacc|]. done.
  - intros Value Heq spurious self expected desired so fo expected' self'.
    unfold atomic_impl.compare_exchange_weak, std.compare_exchange_weak,
      atomic_impl.construct.
    destruct (std.failure_order_ok fo); [|discriminate].
    destruct (bool_decide _ && negb spurious); simpl; [discriminate|].
    intros [= <- <-]. simpl.
    rewrite bool_decide_eq_true_2 by done. reflexivity.
Qed.

Lemma retry_with_written_back_value_succeeds_witness :
  (exists r',
      atomic_impl_wide.compare_exchange_weak x64_debug
        (atomic_impl_wide.construct (i128 7)) (i128 7) (i128 9)
        memory_order_release memory_order_relaxed = Returned r'
      /\ fst (atomic_impl_wide.result r') = true
      /\ atomic_impl_wide.this r' = atomic_impl_wide.construct (i128 9))
  /\ atomic_impl.compare_exchange_weak false (atomic_impl.construct 5) 5 6
       memory_order_release memory_order_relaxed
     = Returned (true, 5, atomic_impl.construct 6).
Proof.
  destruct retry_with_written_back_value_succeeds as [Hwide Hgeneric].
  split.
  - apply (Hwide x64_debug (atomic_impl_wide.construct (i128 7))
             (i128 3) (i128 9) memory_order_release memory_order_relaxed
             {| atomic_impl_wide.result := (false, i128 7);
                atomic_impl_wide.this := atomic_impl_wide.construct (i128 7);
                atomic_impl_wide.issued := full_fence;
                atomic_impl_wide.executed
                  := _InterlockedCompareExchange128
                       (i128 7) 0 9 (i128 3) |});
      reflexivity.
  - apply (Hgeneric Z _ true (atomic_impl.construct 5) 5 6
             memory_order_release memory_order_relaxed 5
             (atomic_impl.construct 5)).
    reflexivity.
Defined.

(** X8: load, then exchange.  A compare_exchange_weak whose expected is
    the value a load of the same cell has just returned succeeds, keeps
    that value in expected and leaves the desired value in the cell: on
    the wide cell for orderings its assertions accept (or without
    assertions), on the generic cell for a failure order std::atomic takes
    and no spurious failure. *)
Theorem exchange_after_load_succeeds :
  (forall tg self order desired successOrder failureOrder l,
      atomic_impl_wide.load tg self order = Returned l ->
      NDEBUG tg || wide_cew_accepts successOrder failureOrder = true ->
      exists r,
        atomic_impl_wide.compare_exchange_weak tg (atomic_impl_wide.this l)
          (atomic_impl_wide.result l) desired successOrder failureOrder
        = Returned r
        /\ atomic_impl_wide.result r = (true, atomic_impl_wide.result l)
        /\ atomic_impl_wide.this r = atomic_impl_wide.construct desired)
  /\ (forall (Value : Type) (Heq : EqDecision Value)
             (self : atomic_impl.t Value) order desired
             successOrder failureOrder v,
        atomic_impl.load self order = Returned v ->
        std.failure_order_ok failureOrder = true ->
        atomic_impl.compare_exchange_weak false self v desired
          successOrder failureOrder
        = Returned (true, v, atomic_impl.construct desired)).
Proof.
  split.
  - intros tg self order desired so fo l Hload Hacc.
    assert (Hl : atomic_impl_wide.this l = self
                 /\ atomic_impl_wide.result l
                    = atomic_impl_wide.atomicValue self).
    { rewrite wide_load_unfold in Hload.
      destruct (assert _ _); simpl in Hload; try discriminate Hload.
      injection Hload as <-. simpl.
      rewrite cmpxchg16b_sentinel, cmpxchg16b_reports_old.
      destruct self; done. }
    destruct Hl as [-> ->].
    eexists. split; [apply wide_cew_match, Hacc|]. done.
  - intros Value Heq self order desired so fo v Hload Hfo.
    unfold atomic_impl.load, std.load in Hload.
    destruct (std.load_order_ok order); [|discriminate].
    injection Hload as <-.
    unfold atomic_impl.compare_exchange_weak, std.compare_exchange_weak.
    rewrite Hfo, bool_decide_eq_true_2 by done. reflexivity.
Qed.

Lemma exchange_after_load_succeeds_witness :
  (exists r,
      atomic_impl_wide.compare_exchange_weak arm64_debug
        (atomic_impl_wide.construct (i128 7)) (i128 7) (i128 9)
        memory_order_relaxed memory_order_acquire = Returned r
      /\ atomic_impl_wide.result r = (true, i128 7)
      /\ atomic_impl_wide.this r = atomic_impl_wide.construct (i128 9))
  /\ atomic_impl.compare_exchange_weak false (atomic_impl.construct 7) 7 9
       memory_order_relaxed memory_order_acquire
     = Returned (true, 7, atomic_impl.construct 9).
Proof.
  destruct exchange_after_load_succeeds as [Hwide Hgeneric].
  split.
  - apply (Hwide arm64_debug (atomic_impl_wide.construct (i128 7))
             memory_order_acquire (i128 9)
             memory_order_relaxed memory_order_acquire
             {| atomic_impl_wide.result := i128 7;
                atomic_impl_wide.this := atomic_impl_wide.construct (i128 7);
                atomic_impl_wide.issued := full_fence;
                atomic_impl_wide.executed
                  := _InterlockedCompareExchange128
                       (i128 7) 0 0 (i128 0) |});
      reflexivity.
  - apply (Hgeneric Z _ (atomic_impl.construct 7) memory_order_acquire 9
             memory_order_relaxed memory_order_acquire 7);
      reflexivity.
Defined.
